(** * The Ethereum Merkle-proof handler of the firmware core

    Source: [core/src/apps/ethereum/verify_merkle_proof.py].

    The module imports [wire], [secp256k1], [sha3_256] and [Success] and
    defines one coroutine,

<<
    async def verify_merkle_proof(ctx):
        return Success(message="Message verified")
>>

    The coroutine has no [await] in its body, so running it is one step: it
    returns its response.  It is embedded as a computation in a small
    state-and-error monad whose state holds the object [ctx] points to
    (shared with the caller) and the log of the primitive calls made so far,
    so that "returns", "raises", "hashes", "compares" and "mutates" are all
    things that can be said, and checked, about the embedded handler. *)

From Stdlib Require Import List String NArith Arith Bool Lia.
From Stdlib.Strings Require Import Byte.
Import ListNotations.

(** Python [bytes]. *)
Definition bytes := list byte.

(** ** Messages *)

(** [trezor.messages.Success] is declared outside this module; the handler
    only sets its keyword argument [message]. *)
Record Success := { message : string }.

(** ** The machine the handler runs on *)

(** The primitives the module has in scope and whose use is observable:
    the hash imported from [trezor.crypto.hashlib], the curve imported from
    [trezor.crypto.curve], and equality on byte strings. *)
Inductive Call :=
| CallSha3_256 (data : bytes)
| CallSecp256k1 (public_key signature digest : bytes)
| CallCompare (a b : bytes).

Definition is_hash_call (c : Call) : bool :=
  match c with CallSha3_256 _ => true | _ => false end.

Definition is_compare_call (c : Call) : bool :=
  match c with CallCompare _ _ => true | _ => false end.

(** What running a coroutine to its end gives: the value of its [return],
    or the error it raised. *)
Inductive Outcome (E A : Type) :=
| Returned (a : A)
| Raised (e : E).

Arguments Returned {E A} a.
Arguments Raised {E A} e.

Section Machine.

(** [C] is the type of the object passed as [ctx]; [E] the type of the
    errors a handler can raise. *)
Variables C E : Type.

Record World := { ctx_obj : C; calls : list Call }.

Definition M (A : Type) : Type := World -> Outcome E A * World.

Definition ret {A} (a : A) : M A := fun w => (Returned a, w).

Definition bind {A B} (m : M A) (k : A -> M B) : M B :=
  fun w =>
    match m w with
    | (Returned a, w') => k a w'
    | (Raised e, w') => (Raised e, w')
    end.

Definition raise {A} (e : E) : M A := fun w => (Raised e, w).

Definition log (c : Call) : M unit :=
  fun w => (Returned tt, {| ctx_obj := ctx_obj w; calls := calls w ++ [c] |}).

Definition read_ctx : M C := fun w => (Returned (ctx_obj w), w).

Definition write_ctx (c : C) : M unit :=
  fun w => (Returned tt, {| ctx_obj := c; calls := calls w |}).

(** The hash primitive is a function of its input; every use is logged. *)
Definition sha3_256 (hash : bytes -> bytes) (data : bytes) : M bytes :=
  bind (log (CallSha3_256 data)) (fun _ => ret (hash data)).

End Machine.

Arguments Build_World {C} ctx_obj calls.
Arguments ctx_obj {C} w.
Arguments calls {C} w.
Arguments ret {C E A} a.
Arguments bind {C E A B} m k.
Arguments raise {C E A} e.
Arguments log {C E} c.
Arguments read_ctx {C E}.
Arguments write_ctx {C E} c.
Arguments sha3_256 {C E} hash data.

Notation "x <- m ;; k" := (bind m (fun x => k))
  (at level 61, m at next level, right associativity).

(** ** The handler *)

(** [async def verify_merkle_proof(ctx): return Success(message="Message verified")] *)
Definition verify_merkle_proof {C E : Type} (ctx : C) : M C E Success :=
  ret {| message := "Message verified" |}.

(** ** The specification's view of the handler *)

Inductive Direction := LEFT | RIGHT.

Record ProofStep := { siblingHash : bytes; direction : Direction }.

Definition ProofPath := list ProofStep.

Inductive Reason := MalformedPath | LengthMismatch | HashMismatch.

Inductive VerificationResult :=
| Verified
| Rejected (reason : Reason).

(** What the caller hands over: the decoded request and the two trusted
    values, reachable from [ctx], the handler's only argument. *)
Record Request := {
  req_leaf : bytes;
  req_path : ProofPath;
  req_root : bytes;
  req_maxDepth : nat
}.

(** A response is a success, a raised error is a declined verification. *)
Definition to_result {A} (o : Outcome Reason A) : VerificationResult :=
  match o with
  | Returned _ => Verified
  | Raised reason => Rejected reason
  end.

(** One invocation of the handler on [req], on a machine that has already
    made the calls of [history]. *)
Definition invoke (history : list Call) (req : Request)
  : Outcome Reason Success * World Request :=
  verify_merkle_proof req {| ctx_obj := req; calls := history |}.

(** The operation the specification calls [verify]: the handler, run on a
    fresh machine. *)
Definition verify (leaf : bytes) (path : ProofPath) (root : bytes)
                  (maxDepth : nat) : VerificationResult :=
  to_result (fst (invoke []
    {| req_leaf := leaf; req_path := path;
       req_root := root; req_maxDepth := maxDepth |})).

(** The calls made by that invocation and the request as it is afterwards. *)
Definition verify_calls (leaf : bytes) (path : ProofPath) (root : bytes)
                        (maxDepth : nat) : list Call :=
  calls (snd (invoke []
    {| req_leaf := leaf; req_path := path;
       req_root := root; req_maxDepth := maxDepth |})).

Definition verify_after (leaf : bytes) (path : ProofPath) (root : bytes)
                        (maxDepth : nat) : Request :=
  ctx_obj (snd (invoke []
    {| req_leaf := leaf; req_path := path;
       req_root := root; req_maxDepth := maxDepth |})).

(** Two invocations in a row on the same machine. *)
Definition invoke_twice (w : World Request) (req : Request)
  : VerificationResult * VerificationResult :=
  let (o1, w1) := verify_merkle_proof (E := Reason) req w in
  let (o2, _) := verify_merkle_proof (E := Reason) req w1 in
  (to_result o1, to_result o2).

(** ** Byte-level helpers *)

Definition byte_of_N (n : N) : byte :=
  match Byte.of_N (n mod 256) with
  | Some b => b
  | None => x00
  end.

(** Flip bit [k] (0..7) of one byte, and of the byte at index [pos]. *)
Definition flip_bit_byte (k : nat) (b : byte) : byte :=
  byte_of_N (N.lxor (Byte.to_N b) (N.shiftl 1 (N.of_nat k))).

Definition flip_bit (pos k : nat) (bs : bytes) : bytes :=
  match nth_error bs pos with
  | Some b => firstn pos bs ++ flip_bit_byte k b :: skipn (S pos) bs
  | None => bs
  end.

(** A single-bit corruption of a request: in the leaf, in the root, or in
    the sibling hash of step [i]. *)
Inductive Corruption :=
| FlipLeaf (pos k : nat)
| FlipRoot (pos k : nat)
| FlipSibling (i pos k : nat).

Definition flip_step (pos k : nat) (s : ProofStep) : ProofStep :=
  {| siblingHash := flip_bit pos k (siblingHash s); direction := direction s |}.

Definition corrupt (c : Corruption) (req : Request) : Request :=
  match c with
  | FlipLeaf pos k =>
      {| req_leaf := flip_bit pos k (req_leaf req); req_path := req_path req;
         req_root := req_root req; req_maxDepth := req_maxDepth req |}
  | FlipRoot pos k =>
      {| req_leaf := req_leaf req; req_path := req_path req;
         req_root := flip_bit pos k (req_root req);
         req_maxDepth := req_maxDepth req |}
  | FlipSibling i pos k =>
      {| req_leaf := req_leaf req;
         req_path :=
           match nth_error (req_path req) i with
           | Some s =>
               firstn i (req_path req) ++ flip_step pos k s
                 :: skipn (S i) (req_path req)
           | None => req_path req
           end;
         req_root := req_root req; req_maxDepth := req_maxDepth req |}
  end.

(** The corruption names a bit that exists. *)
Definition flips_a_bit (c : Corruption) (req : Request) : bool :=
  match c with
  | FlipLeaf pos k => (pos <? List.length (req_leaf req)) && (k <? 8)
  | FlipRoot pos k => (pos <? List.length (req_root req)) && (k <? 8)
  | FlipSibling i pos k =>
      match nth_error (req_path req) i with
      | Some s => (pos <? List.length (siblingHash s)) && (k <? 8)
      | None => false
      end
  end.

(** ** The algorithm as the specification words it

    The definitions of this module follow the text of the specification
    (sections 4.1 and 4.2), not the source: they are what the handler is
    compared with. *)
Module Spec.

(** The fixed output width of the hash primitive, in bytes. *)
Definition hash_width : nat := 32.

(** Constant-time equality: every byte pair is combined, whatever the
    position of the first difference. *)
Definition ct_eq (a b : bytes) : bool :=
  (List.length a =? List.length b) &&
  (fold_left
     (fun acc p => N.lor acc (N.lxor (Byte.to_N (fst p)) (Byte.to_N (snd p))))
     (combine a b) 0 =? 0)%N.

Section WithHash.

Variable hash : bytes -> bytes.

(** Node folding: [hash(R || S)] for RIGHT, [hash(S || R)] for LEFT. *)
Definition fold_input (running : bytes) (s : ProofStep) : bytes :=
  match direction s with
  | RIGHT => running ++ siblingHash s
  | LEFT => siblingHash s ++ running
  end.

Definition next_running (running : bytes) (s : ProofStep) : bytes :=
  hash (fold_input running s).

(** The root a path recomputes: seeded with [hash(leaf)], folded in
    path order. *)
Definition compute_root (leaf : bytes) (path : ProofPath) : bytes :=
  fold_left next_running path (hash leaf).

(** Steps 1 and 2: depth bound and widths. *)
Definition depth_ok (path : ProofPath) (maxDepth : nat) : bool :=
  List.length path <=? maxDepth.

Definition widths_ok (path : ProofPath) (root : bytes) : bool :=
  forallb (fun s => List.length (siblingHash s) =? hash_width) path
  && (List.length root =? hash_width).

Definition well_formed (req : Request) : bool :=
  depth_ok (req_path req) (req_maxDepth req)
  && widths_ok (req_path req) (req_root req).

(** Some rejection condition of section 7 holds for the request. *)
Definition rejection_condition (req : Request) : Prop :=
  well_formed req = false
  \/ compute_root (req_leaf req) (req_path req) <> req_root req.

(** Steps 3 to 6 on the machine: every hash and the final comparison
    are logged. *)
Fixpoint fold_path {C} (running : bytes) (path : ProofPath)
  : M C Reason bytes :=
  match path with
  | [] => ret running
  | s :: rest =>
      r <- sha3_256 hash (fold_input running s) ;;
      fold_path r rest
  end.

Definition verify {C} (req : Request) : M C Reason unit :=
  if negb (depth_ok (req_path req) (req_maxDepth req)) then
    raise MalformedPath
  else if negb (widths_ok (req_path req) (req_root req)) then
    raise MalformedPath
  else
    seed <- sha3_256 hash (req_leaf req) ;;
    running <- fold_path seed (req_path req) ;;
    _ <- log (CallCompare running (req_root req)) ;;
    if ct_eq running (req_root req) then ret tt
    else raise HashMismatch.

(** The reference's verdict and calls on a fresh machine. *)
Definition result (req : Request) : VerificationResult :=
  to_result (fst (verify req {| ctx_obj := req; calls := [] |})).

Definition calls_made (req : Request) : list Call :=
  calls (snd (verify req {| ctx_obj := req; calls := [] |})).

End WithHash.

End Spec.

(** ** Fixtures *)

(** A rolling checksum of a byte string. *)
Definition checksum (data : bytes) : N :=
  fold_left (fun acc b => (acc * 31 + Byte.to_N b + 1) mod 65521)%N data 7%N.

(** Modelled from the spec: the hash primitive is an external library
    ([trezor.crypto.hashlib.sha3_256], imported and never called by the
    handler); section 8 tests against "a fixed 32-byte test hash function".
    This is such a function: the checksum of the input, spread over 32
    bytes.  The theorems take the hash primitive as a parameter; this one
    only serves the concrete inputs. *)
Definition test_hash (data : bytes) : bytes :=
  map (fun i => byte_of_N (checksum data * (N.of_nat i + 1) + N.of_nat i))
      (seq 0 Spec.hash_width).

(** [b"transfer:100"], the leaf of the specification's concrete scenario. *)
Definition leaf_transfer : bytes :=
  list_byte_of_string "transfer:100".

(** The scenario's two sibling fixtures and its root,
    [hash(S2 || hash(hash(leaf) || S1))]. *)
Definition S1 : bytes := test_hash (list_byte_of_string "sibling-1").
Definition S2 : bytes := test_hash (list_byte_of_string "sibling-2").

Definition scenario_path : ProofPath :=
  [ {| siblingHash := S1; direction := RIGHT |};
    {| siblingHash := S2; direction := LEFT |} ].

Definition scenario_root : bytes :=
  test_hash (S2 ++ test_hash (test_hash leaf_transfer ++ S1)).

Definition scenario : Request :=
  {| req_leaf := leaf_transfer; req_path := scenario_path;
     req_root := scenario_root; req_maxDepth := 8 |}.

(** [verify] on a request record. *)
Definition verify_request (req : Request) : VerificationResult :=
  verify (req_leaf req) (req_path req) (req_root req) (req_maxDepth req).

(** A root of the right width that differs from [hash(leaf)] in one bit. *)
Definition wrong_root : bytes := flip_bit 0 0 (test_hash leaf_transfer).

(** The scenario's first sibling, one byte short. *)
Definition short_path : ProofPath :=
  [ {| siblingHash := removelast S1; direction := RIGHT |};
    {| siblingHash := S2; direction := LEFT |} ].

(** [n] invocations of the handler in a row on one machine, the responses
    collected in order. *)
Fixpoint invoke_many {C E : Type} (n : nat) (ctx : C) : M C E (list Success) :=
  match n with
  | 0 => ret []
  | S n' =>
      r <- verify_merkle_proof ctx ;;
      rs <- invoke_many n' ctx ;;
      ret (r :: rs)
  end.

(** The two halves of "the final comparison against the trusted root is
    performed in constant time", read on the log of one run of the handler.
    First half: a comparison of some running value against the trusted root
    is among the operations the run executes. *)
Definition compares_against_root (leaf : bytes) (path : ProofPath)
           (root : bytes) (maxDepth : nat) : Prop :=
  exists running,
    In (CallCompare running root) (verify_calls leaf path root maxDepth).

(** Second half: the number of operations the run executes is the same for
    every trusted root, hence for every position at which the root first
    differs from the recomputed value. *)
Definition cost_independent_of_root (leaf : bytes) (path : ProofPath)
           (maxDepth : nat) : Prop :=
  forall root1 root2 : bytes,
    List.length (verify_calls leaf path root1 maxDepth)
    = List.length (verify_calls leaf path root2 maxDepth).

Definition constant_time_final_comparison (leaf : bytes) (path : ProofPath)
           (root : bytes) (maxDepth : nat) : Prop :=
  compares_against_root leaf path root maxDepth
  /\ cost_independent_of_root leaf path maxDepth.

(** * Facts *)

(** ** The handler, on any machine *)

Lemma verify_merkle_proof_run (C E : Type) (ctx : C) (w : World C) :
  verify_merkle_proof (E := E) ctx w
  = (Returned {| message := "Message verified" |}, w).
Proof. reflexivity. Qed.

Lemma invoke_run (history : list Call) (req : Request) :
  invoke history req
  = (Returned {| message := "Message verified" |},
     {| ctx_obj := req; calls := history |}).
Proof. unfold invoke. apply verify_merkle_proof_run. Qed.

Lemma verify_always (leaf : bytes) (path : ProofPath) (root : bytes)
      (maxDepth : nat) :
  verify leaf path root maxDepth = Verified.
Proof. unfold verify. rewrite invoke_run. reflexivity. Qed.

Lemma verify_calls_none (leaf : bytes) (path : ProofPath) (root : bytes)
      (maxDepth : nat) :
  verify_calls leaf path root maxDepth = [].
Proof. unfold verify_calls. rewrite invoke_run. reflexivity. Qed.

Create Rewrite HintDb handler.
#[local] Hint Rewrite verify_always verify_calls_none : handler.

Ltac handler := unfold verify_request; autorewrite with handler.

(** ** The reference algorithm *)

Lemma to_N_inj (a b : byte) : Byte.to_N a = Byte.to_N b -> a = b.
Proof.
  intros Hab.
  assert (Hs : Some a = Some b)
    by (rewrite <- (Byte.of_to_N a), <- (Byte.of_to_N b), Hab; reflexivity).
  now inversion Hs.
Qed.

Lemma lor_fold_zero (l : list (byte * byte)) (acc : N) :
  fold_left
    (fun acc p => N.lor acc (N.lxor (Byte.to_N (fst p)) (Byte.to_N (snd p))))
    l acc = 0%N
  <-> acc = 0%N /\ Forall (fun p => fst p = snd p) l.
Proof.
  revert acc; induction l as [|p l IH]; intros acc; simpl.
  - split; [intros ->; split; constructor | tauto].
  - rewrite IH, N.lor_eq_0_iff, N.lxor_eq_0_iff. split.
    + intros [[-> Hp] Hl]. split; [reflexivity|].
      constructor; [now apply to_N_inj | assumption].
    + intros [-> Hl]. inversion Hl as [|? ? Hp Hl']; subst.
      now rewrite Hp.
Qed.

Lemma combine_diag (a b : bytes) :
  List.length a = List.length b ->
  Forall (fun p => fst p = snd p) (combine a b) -> a = b.
Proof.
  revert b; induction a as [|x a IH]; intros [|y b] Hlen Hall;
    simpl in *; try discriminate; [reflexivity|].
  inversion Hall as [|? ? Hxy Hrest]; subst; simpl in *; subst.
  f_equal. apply IH; [congruence | assumption].
Qed.

Lemma combine_refl (a : bytes) :
  Forall (fun p : byte * byte => fst p = snd p) (combine a a).
Proof. induction a; simpl; constructor; auto. Qed.

Lemma ct_eq_iff (a b : bytes) : Spec.ct_eq a b = true <-> a = b.
Proof.
  unfold Spec.ct_eq. rewrite andb_true_iff, Nat.eqb_eq, N.eqb_eq, lor_fold_zero.
  split.
  - intros [Hlen [_ Hall]]. now apply combine_diag.
  - intros ->. repeat split. apply combine_refl.
Qed.

Lemma fold_path_returns (hash : bytes -> bytes) (C : Type)
      (path : ProofPath) (running : bytes) (w : World C) :
  fst (Spec.fold_path hash running path w)
  = Returned (fold_left (Spec.next_running hash) path running).
Proof.
  revert running w; induction path as [|s rest IH]; intros running w.
  - reflexivity.
  - simpl. unfold sha3_256, bind, log, ret. simpl. apply IH.
Qed.

Lemma reference_verified_iff (hash : bytes -> bytes) (req : Request) :
  Spec.result hash req = Verified
  <-> Spec.well_formed req = true
      /\ Spec.compute_root hash (req_leaf req) (req_path req) = req_root req.
Proof.
  unfold Spec.result, Spec.verify, Spec.well_formed, Spec.compute_root.
  destruct (Spec.depth_ok (req_path req) (req_maxDepth req)); simpl;
    [|split; [discriminate | intros [? _]; discriminate]].
  destruct (Spec.widths_ok (req_path req) (req_root req)); simpl;
    [|split; [discriminate | intros [? _]; discriminate]].
  unfold bind at 1. unfold sha3_256 at 1. unfold bind at 1. simpl.
  unfold bind at 1.
  match goal with |- context [Spec.fold_path hash ?r ?p ?w] =>
    pose proof (fold_path_returns hash _ p r w) as Hf;
    destruct (Spec.fold_path hash r p w) as [o w'] end.
  simpl in Hf; subst o. unfold bind, log. simpl.
  destruct (Spec.ct_eq _ (req_root req)) eqn:Hct; simpl.
  - apply ct_eq_iff in Hct. tauto.
  - split; [discriminate|]. intros [_ Heq].
    apply ct_eq_iff in Heq. congruence.
Qed.

Lemma reference_rejects_iff (hash : bytes -> bytes) (req : Request) :
  (exists reason, Spec.result hash req = Rejected reason)
  <-> Spec.rejection_condition hash req.
Proof.
  unfold Spec.rejection_condition.
  pose proof (reference_verified_iff hash req) as Hv.
  destruct (Spec.result hash req) as [|reason] eqn:Hr.
  - destruct Hv as [Hv _]. destruct (Hv eq_refl) as [Hwf Hroot]. split.
    + intros [? ?]; discriminate.
    + intros [Hbad | Hbad]; congruence.
  - split; [|intros _; now exists reason]. intros _.
    destruct (Spec.well_formed req) eqn:Hwf; [|now left].
    right. intros Heq. destruct Hv as [_ Hv].
    discriminate (Hv (conj eq_refl Heq)).
Qed.

(** The handler never looks at the hash, so for any hash primitive there is
    a root it accepts although [hash(leaf)] differs from it. *)
Lemma empty_path_accepts_some_wrong_root (hash : bytes -> bytes)
      (leaf : bytes) (maxDepth : nat) :
  exists root, hash leaf <> root /\ verify leaf [] root maxDepth = Verified.
Proof.
  exists (x00 :: hash leaf). split; [|apply verify_always].
  intros Heq. apply (f_equal (@List.length byte)) in Heq. simpl in Heq. lia.
Qed.

(** * The claims *)

(** ** C1 *)

(** C1 (round trip).  For every leaf and every proof path, against the root
    obtained by seeding the running value with [hash(leaf)] and folding the
    steps in path order ([hash(running || sibling)] for RIGHT,
    [hash(sibling || running)] for LEFT), [verify] returns [Verified] --
    for any hash primitive and any [maxDepth]. *)
Theorem round_trip_verified (hash : bytes -> bytes) (leaf : bytes)
        (path : ProofPath) (maxDepth : nat) :
  verify leaf path (Spec.compute_root hash leaf path) maxDepth = Verified.
Proof. apply verify_always. Qed.

(** ** C2 *)

(** C2 fails: with an empty path and a 32-byte root that differs from
    [hash(leaf)] in one bit, the handler answers [Verified], where the
    reference algorithm answers [Rejected HashMismatch]. *)
Lemma empty_path_counterexample :
  test_hash leaf_transfer <> wrong_root
  /\ verify leaf_transfer [] wrong_root 4 = Verified
  /\ verify leaf_transfer [] wrong_root 4 <> Rejected HashMismatch
  /\ ~ (verify leaf_transfer [] wrong_root 4 = Verified
        <-> test_hash leaf_transfer = wrong_root)
  /\ Spec.result test_hash
       {| req_leaf := leaf_transfer; req_path := []; req_root := wrong_root;
          req_maxDepth := 4 |} = Rejected HashMismatch.
Proof.
  assert (Hne : test_hash leaf_transfer <> wrong_root)
    by (vm_compute; discriminate).
  repeat split.
  - exact Hne.
  - vm_compute; discriminate.
  - intros [Hto _]. apply Hne, Hto. reflexivity.
Qed.

(** C2, amended.  For every leaf, root and [maxDepth], [verify] with an
    empty proof path returns [Verified] and does not return
    [Rejected HashMismatch], whether or not [hash(leaf)] equals the root. *)
Theorem empty_path_always_verified (leaf root : bytes) (maxDepth : nat) :
  verify leaf [] root maxDepth = Verified
  /\ verify leaf [] root maxDepth <> Rejected HashMismatch.
Proof. handler. split; [reflexivity | discriminate]. Qed.

(** ** C3 *)

(** C3 fails: the scenario's path has two steps; with [maxDepth = 1] the
    handler answers [Verified], the reference [Rejected MalformedPath]. *)
Lemma depth_bound_counterexample :
  List.length scenario_path = 1 + 1
  /\ verify leaf_transfer scenario_path scenario_root 1 = Verified
  /\ verify leaf_transfer scenario_path scenario_root 1
     <> Rejected MalformedPath
  /\ Spec.result test_hash
       {| req_leaf := leaf_transfer; req_path := scenario_path;
          req_root := scenario_root; req_maxDepth := 1 |}
     = Rejected MalformedPath.
Proof. repeat split. vm_compute; discriminate. Qed.

(** C3, amended.  For every input whose proof path is longer than
    [maxDepth], [verify] returns [Verified], whatever the hashes in the
    path: the handler enforces no depth bound. *)
Theorem over_depth_still_verified (leaf : bytes) (path : ProofPath)
        (root : bytes) (maxDepth : nat) :
  maxDepth < List.length path ->
  verify leaf path root maxDepth = Verified.
Proof. intros _. apply verify_always. Qed.

Lemma over_depth_still_verified_witness :
  1 < List.length scenario_path
  /\ verify leaf_transfer scenario_path scenario_root 1 = Verified.
Proof.
  split.
  - simpl; lia.
  - apply (over_depth_still_verified leaf_transfer scenario_path
             scenario_root 1). simpl; lia.
Defined.

(** ** C4 *)

(** C4 fails: with a first sibling hash one byte short, the handler answers
    [Verified]; the reference rejects with [MalformedPath], without
    hashing. *)
Lemma width_counterexample :
  Spec.widths_ok short_path scenario_root = false
  /\ verify leaf_transfer short_path scenario_root 8 = Verified
  /\ verify leaf_transfer short_path scenario_root 8
     <> Rejected MalformedPath
  /\ Spec.result test_hash
       {| req_leaf := leaf_transfer; req_path := short_path;
          req_root := scenario_root; req_maxDepth := 8 |}
     = Rejected MalformedPath
  /\ Spec.calls_made test_hash
       {| req_leaf := leaf_transfer; req_path := short_path;
          req_root := scenario_root; req_maxDepth := 8 |} = [].
Proof. repeat split. vm_compute; discriminate. Qed.

(** C4, amended.  For every input in which some sibling hash or the root
    does not have the hash primitive's output width, [verify] returns
    [Verified], and the hash function is never invoked. *)
Theorem bad_width_still_verified (leaf : bytes) (path : ProofPath)
        (root : bytes) (maxDepth : nat) :
  Spec.widths_ok path root = false ->
  verify leaf path root maxDepth = Verified
  /\ existsb is_hash_call (verify_calls leaf path root maxDepth) = false.
Proof. intros _. handler. split; reflexivity. Qed.

Lemma bad_width_still_verified_witness :
  Spec.widths_ok short_path scenario_root = false
  /\ verify leaf_transfer short_path scenario_root 8 = Verified
  /\ existsb is_hash_call
       (verify_calls leaf_transfer short_path scenario_root 8) = false.
Proof.
  split.
  - vm_compute; reflexivity.
  - apply (bad_width_still_verified leaf_transfer short_path scenario_root 8).
    vm_compute; reflexivity.
Defined.

(** ** C5 *)

(** C5 fails in its second half: for the scenario with the last bit of its
    root flipped a rejection condition holds (the recomputed root differs
    from the trusted one), and the handler's result is the success outcome
    [Verified]. *)
Lemma rejection_swallowed_counterexample :
  Spec.rejection_condition test_hash (corrupt (FlipRoot 31 7) scenario)
  /\ verify_request (corrupt (FlipRoot 31 7) scenario) = Verified
  /\ ~ (exists reason,
          verify_request (corrupt (FlipRoot 31 7) scenario) = Rejected reason).
Proof.
  split; [|split].
  - right. vm_compute. discriminate.
  - reflexivity.
  - intros [reason Hr]. discriminate Hr.
Qed.

(** C5, amended.  For every input the result of [verify] is one of
    [Verified] and [Rejected reason]; it is [Verified], and no [Rejected]
    value, also when a rejection condition holds: the handler checks
    none. *)
Theorem rejection_condition_still_verified (hash : bytes -> bytes)
        (req : Request) :
  Spec.rejection_condition hash req ->
  verify_request req = Verified
  /\ forall reason, verify_request req <> Rejected reason.
Proof. intros _. handler. split; [reflexivity | discriminate]. Qed.

Lemma rejection_condition_still_verified_witness :
  Spec.rejection_condition test_hash
    {| req_leaf := leaf_transfer; req_path := scenario_path;
       req_root := scenario_root; req_maxDepth := 0 |}
  /\ verify leaf_transfer scenario_path scenario_root 0 = Verified.
Proof.
  split.
  - left. vm_compute. reflexivity.
  - apply (rejection_condition_still_verified test_hash
             {| req_leaf := leaf_transfer; req_path := scenario_path;
                req_root := scenario_root; req_maxDepth := 0 |}).
    left. vm_compute. reflexivity.
Defined.

(** ** C6 *)

(** C6 fails: the scenario is well formed and verified; flipping the lowest
    bit of the first byte of its first sibling hash makes the recomputed
    root differ from the trusted root, and the handler still answers
    [Verified], where the reference answers [Rejected HashMismatch]. *)
Lemma bit_flip_counterexample :
  Spec.well_formed scenario = true
  /\ verify_request scenario = Verified
  /\ flips_a_bit (FlipSibling 0 0 0) scenario = true
  /\ Spec.compute_root test_hash
       (req_leaf (corrupt (FlipSibling 0 0 0) scenario))
       (req_path (corrupt (FlipSibling 0 0 0) scenario))
     <> req_root (corrupt (FlipSibling 0 0 0) scenario)
  /\ verify_request (corrupt (FlipSibling 0 0 0) scenario)
     <> Rejected HashMismatch
  /\ Spec.result test_hash (corrupt (FlipSibling 0 0 0) scenario)
     = Rejected HashMismatch.
Proof.
  repeat split; try (vm_compute; discriminate).
Qed.

(** C6, amended.  For every well-formed, verified input and every single
    bit flipped in its leaf, its root or one sibling hash such that the
    recomputed root of the corrupted input differs from its trusted root,
    [verify] on the corrupted input returns [Verified]. *)
Theorem bit_flip_still_verified (hash : bytes -> bytes) (req : Request)
        (c : Corruption) :
  Spec.well_formed req = true ->
  verify_request req = Verified ->
  flips_a_bit c req = true ->
  Spec.compute_root hash (req_leaf (corrupt c req)) (req_path (corrupt c req))
    <> req_root (corrupt c req) ->
  verify_request (corrupt c req) = Verified.
Proof. intros _ _ _ _. handler. reflexivity. Qed.

Lemma bit_flip_still_verified_witness :
  Spec.well_formed scenario = true
  /\ verify_request scenario = Verified
  /\ flips_a_bit (FlipLeaf 3 5) scenario = true
  /\ Spec.compute_root test_hash
       (req_leaf (corrupt (FlipLeaf 3 5) scenario))
       (req_path (corrupt (FlipLeaf 3 5) scenario))
     <> req_root (corrupt (FlipLeaf 3 5) scenario)
  /\ verify_request (corrupt (FlipLeaf 3 5) scenario) = Verified.
Proof.
  split; [vm_compute; reflexivity|].
  split; [vm_compute; reflexivity|].
  split; [vm_compute; reflexivity|].
  split; [vm_compute; discriminate|].
  apply (bit_flip_still_verified test_hash scenario (FlipLeaf 3 5)).
  - vm_compute; reflexivity.
  - vm_compute; reflexivity.
  - vm_compute; reflexivity.
  - vm_compute; discriminate.
Defined.

(** ** C7 *)

(** C7 (determinism).  Two invocations on the same request give the same
    result: whatever calls the machine made before either of them, and
    also when the second runs on the machine the first one left. *)
Theorem verify_deterministic (h1 h2 : list Call) (w : World Request)
        (req : Request) :
  to_result (fst (invoke h1 req)) = to_result (fst (invoke h2 req))
  /\ fst (invoke_twice w req) = snd (invoke_twice w req)
  /\ to_result (fst (invoke h1 req)) = verify_request req.
Proof.
  rewrite !invoke_run. unfold invoke_twice.
  rewrite !verify_merkle_proof_run. handler. repeat split.
Qed.

(** ** C8 *)

(** C8 (no mutation).  After the call the object passed as [ctx] is what it
    was before, on any machine; in particular the leaf, every step of the
    path and the root of the request are unchanged. *)
Theorem verify_leaves_inputs_unchanged (C : Type) (ctx : C) (w : World C)
        (leaf : bytes) (path : ProofPath) (root : bytes) (maxDepth : nat) :
  ctx_obj (snd (verify_merkle_proof (E := Reason) ctx w)) = ctx_obj w
  /\ req_leaf (verify_after leaf path root maxDepth) = leaf
  /\ req_path (verify_after leaf path root maxDepth) = path
  /\ req_root (verify_after leaf path root maxDepth) = root.
Proof.
  rewrite verify_merkle_proof_run. unfold verify_after.
  rewrite invoke_run. repeat split.
Qed.

(** ** C9 *)

(** C9 fails in its first half: on the scenario the handler performs no
    comparison against the trusted root (nor any other comparison), so no
    final comparison is performed in constant time; the reference performs
    exactly that comparison.  The second half holds there: the number of
    operations executed does not change with the root. *)
Lemma comparison_counterexample :
  ~ constant_time_final_comparison leaf_transfer scenario_path scenario_root 8
  /\ ~ compares_against_root leaf_transfer scenario_path scenario_root 8
  /\ existsb is_compare_call
       (verify_calls leaf_transfer scenario_path scenario_root 8) = false
  /\ cost_independent_of_root leaf_transfer scenario_path 8
  /\ In (CallCompare (Spec.compute_root test_hash leaf_transfer scenario_path)
                     scenario_root)
        (Spec.calls_made test_hash scenario).
Proof.
  assert (Hno : ~ compares_against_root leaf_transfer scenario_path
                    scenario_root 8)
    by (intros [running Hin]; exact Hin).
  split; [|split; [|split; [|split]]].
  - intros [Hcmp _]. exact (Hno Hcmp).
  - exact Hno.
  - reflexivity.
  - intros root1 root2. reflexivity.
  - vm_compute. do 3 right. left. reflexivity.
Qed.

(** C9, amended.  [verify] performs no comparison of a running hash against
    the trusted root.  It executes no operation at all -- no hash call, no
    comparison, on any machine the log after the call is the log before --
    so the operations it executes are the same for any two inputs, and
    their number is fixed and independent of where the root first differs
    from any other value. *)
Theorem no_comparison_fixed_cost (history : list Call)
        (leaf1 leaf2 : bytes) (path1 path2 : ProofPath)
        (root1 root2 : bytes) (maxDepth1 maxDepth2 : nat) :
  calls (snd (invoke history
          {| req_leaf := leaf1; req_path := path1;
             req_root := root1; req_maxDepth := maxDepth1 |})) = history
  /\ verify_calls leaf1 path1 root1 maxDepth1 = []
  /\ verify_calls leaf1 path1 root1 maxDepth1
     = verify_calls leaf2 path2 root2 maxDepth2
  /\ ~ compares_against_root leaf1 path1 root1 maxDepth1
  /\ existsb is_compare_call (verify_calls leaf1 path1 root1 maxDepth1) = false
  /\ existsb is_hash_call (verify_calls leaf1 path1 root1 maxDepth1) = false
  /\ cost_independent_of_root leaf1 path1 maxDepth1.
Proof.
  rewrite invoke_run. unfold compares_against_root, cost_independent_of_root.
  split; [reflexivity|]. split; [apply verify_calls_none|].
  split; [now rewrite !verify_calls_none|].
  split; [intros [running Hin]; rewrite verify_calls_none in Hin; exact Hin|].
  split; [now rewrite verify_calls_none|].
  split; [now rewrite verify_calls_none|].
  intros r1 r2. now rewrite !verify_calls_none.
Qed.

(** ** C10 *)

(** C10.  For every [ctx], on every machine, the handler returns
    [Success(message="Message verified")]: the same response for any two
    inputs, never a raised error, and with no call added to the machine's
    log -- no hash computation and no comparison. *)
Theorem verify_merkle_proof_unconditional (C1 C2 E : Type) (ctx1 : C1)
        (ctx2 : C2) (w1 : World C1) (w2 : World C2) :
  fst (verify_merkle_proof (E := E) ctx1 w1)
  = Returned {| message := "Message verified" |}
  /\ fst (verify_merkle_proof (E := E) ctx1 w1)
     = fst (verify_merkle_proof (E := E) ctx2 w2)
  /\ (forall e, fst (verify_merkle_proof (E := E) ctx1 w1) <> Raised e)
  /\ calls (snd (verify_merkle_proof (E := E) ctx1 w1)) = calls w1.
Proof.
  rewrite !verify_merkle_proof_run. simpl.
  repeat split. intros e He. discriminate He.
Qed.

(** * Further properties of the handler *)

(** X1 (transparent in a sequence).  For every computation [m] on the
    machine -- one that may hash, compare, rewrite the object behind [ctx]
    or raise -- and every continuation [k], running the handler before [m]
    and running it after [m] give the same outcome and the same final
    machine: the handler neither observes nor disturbs what runs around
    it, and an error raised by [m] is never replaced by its success. *)
Theorem handler_commutes (C E A B : Type) (ctx : C) (m : M C E A)
        (k : Success -> A -> M C E B) (w : World C) :
  (r <- verify_merkle_proof ctx ;; x <- m ;; k r x) w
  = (x <- m ;; r <- verify_merkle_proof ctx ;; k r x) w.
Proof.
  unfold bind at 1. rewrite verify_merkle_proof_run.
  unfold bind. destruct (m w) as [[x|e] w']; [|reflexivity].
  rewrite verify_merkle_proof_run. reflexivity.
Qed.

(** X2 (repeated invocation).  Any number [n] of invocations in a row, from
    any machine state, all return [Success(message="Message verified")],
    and leave the machine -- the object behind [ctx] and the log of calls
    -- exactly as it was before the first. *)
Theorem invoke_many_run (C E : Type) (n : nat) (ctx : C) (w : World C) :
  invoke_many (E := E) n ctx w
  = (Returned (repeat {| message := "Message verified" |} n), w).
Proof.
  induction n as [|n IH]; simpl.
  - reflexivity.
  - unfold bind at 1. rewrite verify_merkle_proof_run.
    unfold bind at 1. rewrite IH. reflexivity.
Qed.
